(** * Atomic-weight calculators: a shallow embedding and its properties

    The development follows the two Python modules of the repository:

    - [atomic_weight_from_weight_percent.py]: the weight-percent calculator;
    - [isotopes_db.py]: the isotope record, the built-in Tin seed, the CSV
      loader, the default database and the natural atomic-weight calculator.

    The command-line wrapper [atomic_weight.py] and the table builder
    [build_isotopes_csv.py] (download and parsing of the NIST listing, writing
    of the CSV file) are not embedded; the loader starts from the rows that
    [csv.DictReader] yields.

    Numbers.  Python's [float] is modelled by the exact rationals [Q]: every
    arithmetic operation is the exact one, comparisons are the exact ones
    ([Qeq_bool], [Qle_bool]), and a float literal denotes the decimal it is
    written as.  Rounding, overflow, infinities and NaN are therefore outside
    the model; all statements below are statements in exact arithmetic.

    Strings.  Python's [str] is modelled by [string]; the case maps and the
    white-space test are the ASCII ones, characters above 127 are treated as
    caseless and non-blank.

    Exceptions.  A call either returns a value or raises an exception, which
    is a class together with its message. *)

From Stdlib Require Import QArith Qabs Qround Qminmax Lqa ZArith String Ascii List
  Sorted.
From stdpp Require Import gmap strings list fin_maps.
Import ListNotations.

Local Open Scope string_scope.
Local Open Scope list_scope.

(** ** The Python fragment the sources use *)

Module Py.

(** The exception classes raised by the two modules. *)
Inductive exception : Type :=
| ValueError (msg : string)
| KeyError (msg : string)
| ZeroDivisionError (msg : string).

(** Outcome of a call. *)
Inductive result (A : Type) : Type :=
| Return (a : A)
| Raise (e : exception).
Arguments Return {A} a.
Arguments Raise {A} e.

(** Sequencing: an exception raised by the first call propagates. *)
#[global] Instance result_ret : MRet result := @Return.
#[global] Instance result_bind : MBind result := fun A B k r =>
  match r with
  | Return a => k a
  | Raise e => Raise e
  end.

Definition returns {A} (r : result A) : Prop := exists a, r = Return a.
Definition raises {A} (r : result A) : Prop := exists e, r = Raise e.

(** [x < y] on floats. *)
Definition Qlt_bool (x y : Q) : bool := negb (Qle_bool y x).

(** [sum(xs)]: starts from 0 and adds from left to right. *)
Definition sum (xs : list Q) : Q := fold_left Qplus xs 0%Q.

(** [any(p(x) for x in xs)]. *)
Definition any {A} (p : A -> bool) (xs : list A) : bool := existsb p xs.

(** [zip(xs, ys)]: stops at the end of the shorter sequence. *)
Definition zip {A B} (xs : list A) (ys : list B) : list (A * B) := combine xs ys.

(** [abs(x)]. *)
Definition abs (x : Q) : Q := Qabs x.

End Py.
Import Py.

(** ** [atomic_weight_from_weight_percent.py] *)

Module WeightPercent.

Local Open Scope Q_scope.

(** The four precondition errors and the guard of the final division, with
    the messages of the source; the names are those of the error
    taxonomy. *)
Definition ShapeMismatch : exception :=
  ValueError "masses_u and weight_percents must have the same length.".
Definition InvalidMass : exception :=
  ValueError "All masses must be positive.".
Definition InvalidWeight : exception :=
  ValueError "All weight entries must be nonnegative.".
Definition DegenerateInput : exception :=
  ValueError "Sum of weight percents/fractions is zero.".
Definition ArithmeticDegenerate : exception :=
  ZeroDivisionError "Denominator became zero; check inputs.".

(** [sum((w / m) for w, m in zip(ws, masses_u))]. *)
Definition denominator (ws masses_u : list Q) : Q :=
  Py.sum (map (fun wm => fst wm / snd wm) (Py.zip ws masses_u)).

Definition atomic_weight_from_weight_percent
    (masses_u weight_percents : list Q) : result Q :=
  if negb (Nat.eqb (length masses_u) (length weight_percents)) then
    Raise ShapeMismatch
  else if Py.any (fun m => Qle_bool m 0) masses_u then
    Raise InvalidMass
  else if Py.any (fun w => Qlt_bool w 0) weight_percents then
    Raise InvalidWeight
  else
    let total := Py.sum weight_percents in
    if Qeq_bool total 0 then
      Raise DegenerateInput
    else if Qlt_bool (Py.abs (total - 100)) 1 then
      let denom := denominator weight_percents masses_u in
      if Qeq_bool denom 0 then Raise ArithmeticDegenerate
      else Return (total / denom)
    else
      let w_frac := map (fun w => w / total) weight_percents in
      let denom := denominator w_frac masses_u in
      if Qeq_bool denom 0 then Raise ArithmeticDegenerate
      else Return (1 / denom).

(** The two calls at the end of the module. *)
Definition pu_masses : list Q :=
  [238.0496; 239.0522; 240.0538; 241.0568; 242.0587].
Definition aw : result Q :=
  atomic_weight_from_weight_percent pu_masses [15; 35; 15; 20; 15].
Definition aw2 : result Q :=
  atomic_weight_from_weight_percent pu_masses [0.15; 0.35; 0.15; 0.20; 0.15].

End WeightPercent.

(** ** Python strings: the [str] methods the sources call *)

Module PyStr.

(** [c.isspace()] on ASCII: tab, line feed, vertical tab, form feed,
    carriage return, the four separators 28..31 and the blank. *)
Definition is_space (c : ascii) : bool :=
  let n := nat_of_ascii c in
  ((9 <=? n) && (n <=? 13) || (28 <=? n) && (n <=? 32))%nat.

Definition upper_char (c : ascii) : ascii :=
  let n := nat_of_ascii c in
  if ((97 <=? n) && (n <=? 122))%nat then ascii_of_nat (n - 32) else c.

Definition lower_char (c : ascii) : ascii :=
  let n := nat_of_ascii c in
  if ((65 <=? n) && (n <=? 90))%nat then ascii_of_nat (n + 32) else c.

Fixpoint map_chars (f : ascii -> ascii) (s : string) : string :=
  match s with
  | EmptyString => EmptyString
  | String c s' => String (f c) (map_chars f s')
  end.

(** [s.upper()], [s.lower()]. *)
Definition upper (s : string) : string := map_chars upper_char s.
Definition lower (s : string) : string := map_chars lower_char s.

(** [s.capitalize()]: first character upper-cased, the rest lower-cased. *)
Definition capitalize (s : string) : string :=
  match s with
  | EmptyString => EmptyString
  | String c s' => String (upper_char c) (lower s')
  end.

(** [s.lstrip()], [s.rstrip()], [s.strip()]. *)
Fixpoint lstrip (s : string) : string :=
  match s with
  | EmptyString => EmptyString
  | String c s' => if is_space c then lstrip s' else s
  end.

Fixpoint rstrip (s : string) : string :=
  match s with
  | EmptyString => EmptyString
  | String c s' =>
      match rstrip s' with
      | EmptyString => if is_space c then EmptyString else String c EmptyString
      | r => String c r
      end
  end.

Definition strip (s : string) : string := rstrip (lstrip s).

(** [s[i]] for an index within range, as a one-character string. *)
Definition item (s : string) (i : nat) : string := substring i 1 s.

(** Decimal numeral of a natural number, as [str(n)] prints it. *)
Definition digit_char (d : N) : ascii := ascii_of_N (48 + d).

Fixpoint decimal_aux (fuel : nat) (n : N) (acc : string) : string :=
  match fuel with
  | O => acc
  | S fuel' =>
      let acc' := String (digit_char (n mod 10)) acc in
      if (n <? 10)%N then acc' else decimal_aux fuel' (n / 10) acc'
  end.

Definition decimal (n : N) : string :=
  decimal_aux (S (N.to_nat (N.log2 n))) n EmptyString.

(** [round(x)] to the nearest integer, ties to the even one: the rounding
    of the [f] presentation type. *)
Definition round_half_even (x : Q) : Z :=
  let f := Qfloor x in
  let r := (x - inject_Z f)%Q in
  if Qlt_bool r (1 # 2) then f
  else if Qlt_bool (1 # 2) r then (f + 1)%Z
  else if Z.even f then f else (f + 1)%Z.

(** [f"{x:.3f}"]: sign, integer part, a point and three decimals. *)
Definition format_3f (x : Q) : string :=
  let n := Z.to_N (round_half_even (Qabs x * 1000)) in
  let frac := (n mod 1000)%N in
  (if Qlt_bool x 0 then "-" else "")
    ++ decimal (n / 1000)
    ++ "."
    ++ String (digit_char (frac / 100))
         (String (digit_char ((frac / 10) mod 10))
            (String (digit_char (frac mod 10)) EmptyString)).

End PyStr.
Import PyStr.

(** ** [isotopes_db.py] *)

Module IsotopesDb.

Local Open Scope Q_scope.

Record Isotope : Type := mkIsotope {
  element : string;
  symbol : string;
  A : Z;
  mass_u : Q;
  abundance_percent : Q;
  stable : bool
}.

(** [Dict[str, list[Isotope]]]. *)
Abbreviation table := (gmap string (list Isotope)).

(** A row as [csv.DictReader] yields it: a dictionary from column names to
    cells; the cell of a column that a short line does not reach is
    [None]. *)
Abbreviation csv_row := (gmap string (option string)).

Definition _SEED : table :=
  {[ "Sn" :=
     [ mkIsotope "Tin" "Sn" 112 111.90482387 0.97 true;
       mkIsotope "Tin" "Sn" 114 113.9027827 0.66 true;
       mkIsotope "Tin" "Sn" 115 114.903344699 0.34 true;
       mkIsotope "Tin" "Sn" 116 115.90174280 14.54 true;
       mkIsotope "Tin" "Sn" 117 116.90295398 7.68 true;
       mkIsotope "Tin" "Sn" 118 117.90160657 24.22 true;
       mkIsotope "Tin" "Sn" 119 118.90331117 8.59 true;
       mkIsotope "Tin" "Sn" 120 119.90220163 32.58 true;
       mkIsotope "Tin" "Sn" 122 121.9034438 4.63 true;
       mkIsotope "Tin" "Sn" 124 123.9052766 5.79 true ] ]}.

(** What the module takes from its environment: the built-ins [int] and
    [float] on strings ([None] when they raise), the text of the
    [Bad row in CSV] message (the [repr] of the row and the text of the
    caught exception), and the file system, which gives for a path the rows
    that [csv.DictReader] reads from it, or [None] when no such file
    exists. *)
Class Env : Type := {
  py_int : string -> option Z;
  py_float : string -> option Q;
  bad_row_message : csv_row -> string;
  files : string -> option (list csv_row)
}.

(** [bool(db)] for a dictionary. *)
Definition truthy (db : table) : bool := negb (Nat.eqb (size db) 0).

(** [sorted(l, key=lambda x: x.A)]: a stable sort on the mass number. *)
Fixpoint insert_by_A (x : Isotope) (l : list Isotope) : list Isotope :=
  match l with
  | [] => [x]
  | y :: l' => if (A x <=? A y)%Z then x :: l else y :: insert_by_A x l'
  end.

Definition sorted_by_A (l : list Isotope) : list Isotope :=
  foldr insert_by_A [] l.

(** [str(row.get("stable", "True")).strip().lower() in {"true","1","yes","y"}]. *)
Definition stable_markers : list string := ["true"; "1"; "yes"; "y"].

Definition marked_stable (row : csv_row) : bool :=
  let cell :=
    match row !! "stable" with
    | None => "True"
    | Some None => "None"
    | Some (Some s) => s
    end in
  bool_decide (lower (strip cell) ∈ stable_markers).

(** [row[k]] as a string: absent columns and [None] cells make the
    expression that uses it raise. *)
Definition cell (row : csv_row) (k : string) : option string :=
  mjoin (row !! k).

Section WithEnv.
Context {env : Env}.

(** The body of the [try]: [None] when any sub-expression raises. *)
Definition make_isotope (row : csv_row) : option Isotope :=
  e ← cell row "element";
  s ← cell row "symbol";
  a ← cell row "A" ≫= py_int;
  m ← cell row "mass_u" ≫= py_float;
  p ← cell row "abundance_percent" ≫= py_float;
  Some (mkIsotope (strip e) (strip s) a m p true).

(** The [for row in reader] loop, on the dictionary built so far. *)
Fixpoint load_rows (rows : list csv_row) (db : table) : result table :=
  match rows with
  | [] => Return db
  | row :: rest =>
      if negb (marked_stable row) then load_rows rest db
      else
        match make_isotope row with
        | None => Raise (ValueError (bad_row_message row))
        | Some iso =>
            load_rows rest
              (<[symbol iso := default [] (db !! symbol iso) ++ [iso]]> db)
        end
  end.

Definition load_csv (path : string) : result table :=
  match files path with
  | None => Return ∅
  | Some rows =>
      db ← load_rows rows ∅;
      Return (sorted_by_A <$> (db : table))
  end.

Definition get_database (csv_path : string) : result table :=
  db ← load_csv csv_path;
  if truthy db then Return db else Return _SEED.

(** The first lines of [atomic_weight]: the symbol as it is looked up. *)
Definition normalize_symbol (symbol : string) : string :=
  let symbol :=
    if (String.length symbol <=? 2)%nat then capitalize (strip symbol)
    else strip symbol in
  if (String.length symbol =? 1)%nat then upper symbol
  else if (String.length symbol =? 2)%nat then
    upper (item symbol 0) ++ lower (item symbol 1)
  else symbol.

Definition NotFound (symbol : string) : exception :=
  KeyError ("No stable isotope data for element symbol '" ++ symbol ++ "'. "
            ++ "Provide 'isotopes.csv' with stable isotopes and abundances.").

Definition DataInconsistency (symbol : string) (total_abund : Q) : exception :=
  ValueError ("Abundances for " ++ symbol ++ " sum to "
              ++ format_3f total_abund ++ "%, not ~100%. "
              ++ "Check your input CSV for that element.").

(** [db or get_database()]: [None] and the empty dictionary are both
    replaced by the default database. *)
Definition db_or_default (db : option table) : result table :=
  match db with
  | Some d => if truthy d then Return d else get_database "isotopes.csv"
  | None => get_database "isotopes.csv"
  end.

Definition atomic_weight (symbol : string) (db : option table) : result Q :=
  let symbol := normalize_symbol symbol in
  db ← db_or_default db;
  match db !! symbol with
  | None => Raise (NotFound symbol)
  | Some isotopes =>
      let total_abund := Py.sum (map abundance_percent isotopes) in
      if Qlt_bool 0.5 (Py.abs (total_abund - 100)) then
        Raise (DataInconsistency symbol total_abund)
      else
        Return (Py.sum (map (fun i => (abundance_percent i / 100) * mass_u i)
                          isotopes))
  end.

End WithEnv.

End IsotopesDb.

(** ** A concrete environment, for running the loader on examples

    Its [int] and [float] read plain decimal numerals only (an optional sign,
    digits, and for [float] an optional point followed by digits), after
    trimming; on these the built-ins of Python agree with them. *)

Module Plain.

Import IsotopesDb.

Fixpoint digits_value (s : string) (acc : N) : option N :=
  match s with
  | EmptyString => Some acc
  | String c s' =>
      let n := N_of_ascii c in
      if ((48 <=? n) && (n <=? 57))%N
      then digits_value s' (acc * 10 + (n - 48))%N
      else None
  end.

Definition natural (s : string) : option N :=
  match s with
  | EmptyString => None
  | _ => digits_value s 0%N
  end.

(** Sign and magnitude of a trimmed numeral. *)
Definition signed (s : string) : bool * string :=
  match s with
  | String "-" r => (true, r)
  | String "+" r => (false, r)
  | _ => (false, s)
  end.

(** The part before the first point, and the part after it if there is one. *)
Fixpoint split_point (s : string) : string * option string :=
  match s with
  | EmptyString => (EmptyString, None)
  | String "." r => (EmptyString, Some r)
  | String c r => let '(i, f) := split_point r in (String c i, f)
  end.

Definition plain_int (s : string) : option Z :=
  let '(neg, body) := signed (strip s) in
  n ← natural body;
  Some (if neg then (- Z.of_N n)%Z else Z.of_N n).

Definition plain_float (s : string) : option Q :=
  let '(neg, body) := signed (strip s) in
  let '(i, f) := split_point body in
  n ← natural i;
  q ← match f with
      | None => Some (inject_Z (Z.of_N n))
      | Some d =>
          m ← natural d;
          let scale := (10 ^ N.of_nat (String.length d))%N in
          Some (Qmake (Z.of_N (n * scale + m)) (Pos.of_nat (N.to_nat scale)))
      end;
  Some (if neg then (- q)%Q else q).

Definition plain_env (fs : string -> option (list csv_row)) : Env :=
  {| py_int := plain_int;
     py_float := plain_float;
     bad_row_message := fun _ => "Bad row in CSV";
     files := fs |}.

(** No file at all. *)
Definition no_files : Env := plain_env (fun _ => None).

(** A table file of one line under a header without the [stable] column. *)
Definition unmarked_row : csv_row :=
  {[ "element" := Some "Gold"; "symbol" := Some "Au"; "A" := Some "197";
     "mass_u" := Some "196.96657"; "abundance_percent" := Some "100" ]}.

(** A line whose [stable] cell is empty, and one marked [yes]. *)
Definition blank_marker_row : csv_row :=
  <["stable" := Some ""]> unmarked_row.
Definition marked_row : csv_row :=
  <["stable" := Some " Yes "]> unmarked_row.

Definition one_file (name : string) (rows : list csv_row) : Env :=
  plain_env (fun path => if String.eqb path name then Some rows else None).

(** Two one-element tables: gold with its single isotope, and the same with
    an abundance of 90. *)
Definition gold : Isotope := mkIsotope "Gold" "Au" 197 196.96657 100 true.
Definition gold_table : table := {[ "Au" := [gold] ]}.

End Plain.

(** ** The properties, in the words of the specification *)

Module Spec.

Local Open Scope Q_scope.

(** Σ xs. *)
Fixpoint total (xs : list Q) : Q :=
  match xs with
  | [] => 0
  | x :: xs' => x + total xs'
  end.

(** Σ (weight_i / mass_i) over the paired entries. *)
Fixpoint ratio_sum (weights masses : list Q) : Q :=
  match weights, masses with
  | w :: ws, m :: ms => w / m + ratio_sum ws ms
  | _, _ => 0
  end.

(** The composition input: parallel sequences, masses positive, weights
    non-negative and not summing to zero. *)
Definition composition (masses weights : list Q) : Prop :=
  length masses = length weights /\
  Forall (fun m => 0 < m) masses /\
  Forall (fun w => 0 <= w) weights /\
  ~ total weights == 0.

(** Percent-direct formula: total / Σ(weight_i / mass_i). *)
Definition percent_direct (masses weights : list Q) : Q :=
  total weights / ratio_sum weights masses.

(** Normalised formula: 1 / Σ(normalized_weight_i / mass_i). *)
Definition normalized (masses weights : list Q) : Q :=
  1 / ratio_sum (map (fun w => w / total weights) weights) masses.

(** Least and greatest entry of a sequence (0 for the empty one). *)
Definition minimum (xs : list Q) : Q :=
  match xs with
  | [] => 0
  | x :: xs' => fold_left Qmin xs' x
  end.

Definition maximum (xs : list Q) : Q :=
  match xs with
  | [] => 0
  | x :: xs' => fold_left Qmax xs' x
  end.

(** [x] is [y] up to [tol]. *)
Definition approx (tol x y : Q) : Prop := Qabs (x - y) <= tol.


(** *** The natural atomic-weight calculator and the table loader *)

Import IsotopesDb.

(** Ascending order of mass numbers. *)
Definition by_mass_number (i j : Isotope) : Prop := (A i <= A j)%Z.




(** The text of an exception, and a text occurring in it. *)
Definition message (e : exception) : string :=
  match e with
  | ValueError msg | KeyError msg | ZeroDivisionError msg => msg
  end.

Definition mentions (msg part : string) : Prop :=
  exists pre post, msg = (pre ++ part ++ post)%string.

(** Canonical case of a trimmed symbol: one character is upper-cased, of two
    characters the first is upper-cased and the second lower-cased. *)
Definition canonical_case (t : string) : string :=
  match t with
  | String c EmptyString => String (upper_char c) EmptyString
  | String c1 (String c2 EmptyString) =>
      String (upper_char c1) (String (lower_char c2) EmptyString)
  | _ => t
  end.




(** C6 as stated: a canonical symbol absent from the table given is always
    reported as not found. *)
Definition absent_symbol_not_found : Prop :=
  forall (env : Env) (db : table) (symbol : string),
    db !! normalize_symbol symbol = None ->
    atomic_weight symbol (Some db) = Raise (NotFound (normalize_symbol symbol)).

(** The records under [sym] of the table made from the rows that [keep]
    selects. *)
Definition records_of `{Env} (keep : csv_row -> bool) (rows : list csv_row)
    (sym : string) : list Isotope :=
  sorted_by_A
    (filter (fun iso => symbol iso = sym)
       (omap make_isotope (filter (fun row => keep row = true) rows))).

(** The stability field of the row, trimmed and lower-cased, is one of the
    markers meaning true; a row without the field has no marker. *)
Definition true_marker (row : csv_row) : bool :=
  match row !! "stable" with
  | Some (Some s) => bool_decide (lower (strip s) ∈ stable_markers)
  | _ => false
  end.

(** C9 as stated: the table holds the records of the rows with a true
    marker, and of no other row. *)
Definition loader_keeps_true_markers : Prop :=
  forall (env : Env) (path : string) (rows : list csv_row) (db : table),
    files path = Some rows ->
    load_csv path = Return db ->
    forall sym, default [] (db !! sym) = records_of true_marker rows sym.

End Spec.
Import Spec.

(** ** [atomic_weight.py]: the command-line entry point *)

Module Cli.

Import IsotopesDb.

(** [f"{x:.6f}"]: sign, integer part, a point and six decimals. *)
Definition zero_padded (width : nat) (s : string) : string :=
  string_of_list_ascii (repeat "0"%char (width - String.length s)) ++ s.

Definition format_6f (x : Q) : string :=
  let n := Z.to_N (round_half_even (Qabs x * 1000000)) in
  (if Qlt_bool x 0 then "-" else "")
    ++ decimal (n / 1000000)
    ++ "."
    ++ zero_padded 6 (decimal (n mod 1000000)).

(** [main], from the parsed arguments: [symbol] is the required [--symbol],
    [csv] the optional [--csv] whose default is [isotopes.csv].  The value
    returned is the line that is printed. *)
Definition main `{Env} (symbol : string) (csv : option string)
    : result string :=
  db ← get_database (default "isotopes.csv" csv);
  aw ← atomic_weight symbol (Some (db : table));
  Return ("Atomic weight (natural) for " ++ symbol ++ ": "
          ++ format_6f aw ++ " u")%string.

End Cli.

(** ** Further notions used to state properties of the code *)

Module Theory.

Local Open Scope Q_scope.
Import IsotopesDb.



(** Two environments with the same built-ins that see the same file at
    [path]. *)
Definition same_file_at (path : string) (e1 e2 : Env) : Prop :=
  (forall s, @py_int e1 s = @py_int e2 s) /\
  (forall s, @py_float e1 s = @py_float e2 s) /\
  (forall row, @bad_row_message e1 row = @bad_row_message e2 row) /\
  @files e1 path = @files e2 path.

(** A record as the loader builds it under the key [sym]. *)
Definition loaded_record (sym : string) (iso : Isotope) : Prop :=
  symbol iso = sym /\ stable iso = true /\
  strip (symbol iso) = symbol iso /\ strip (element iso) = element iso.

(** Every list of the table is non-empty and holds records of its key. *)
Definition well_keyed (db : table) : Prop :=
  forall sym l, db !! sym = Some l -> l <> [] /\ Forall (loaded_record sym) l.

End Theory.
Import Theory.

(** * Theorems *)

(** ** Sums and denominators *)

Section Sums.

Local Open Scope Q_scope.
Import WeightPercent.

Lemma fold_left_Qplus (xs : list Q) (a : Q) :
  fold_left Qplus xs a == a + total xs.
Proof.
  revert a. induction xs as [|x xs IH]; intros a; simpl.
  - ring.
  - rewrite IH. ring.
Qed.

Lemma sum_total (xs : list Q) : Py.sum xs == total xs.
Proof. unfold Py.sum. rewrite fold_left_Qplus. ring. Qed.

Lemma total_ratio (ws ms : list Q) :
  total (map (fun wm => fst wm / snd wm) (Py.zip ws ms)) == ratio_sum ws ms.
Proof.
  revert ms. induction ws as [|w ws IH]; intros [|m ms]; simpl; try reflexivity.
  rewrite IH. reflexivity.
Qed.

Lemma denominator_ratio_sum (ws ms : list Q) :
  denominator ws ms == ratio_sum ws ms.
Proof. unfold denominator. rewrite sum_total. apply total_ratio. Qed.

Lemma total_nonneg (ws : list Q) :
  Forall (fun w => 0 <= w) ws -> 0 <= total ws.
Proof.
  induction 1 as [|w ws Hw _ IH]; simpl; lra.
Qed.

Lemma ratio_nonneg (w m : Q) : 0 <= w -> 0 < m -> 0 <= w / m.
Proof.
  intros Hw Hm. apply Qle_shift_div_l; [assumption|]. rewrite Qmult_0_l.
  assumption.
Qed.

Lemma ratio_sum_nonneg (ws ms : list Q) :
  Forall (fun w => 0 <= w) ws -> Forall (fun m => 0 < m) ms ->
  0 <= ratio_sum ws ms.
Proof.
  intros Hws. revert ms.
  induction Hws as [|w ws Hw _ IH]; intros ms Hms; simpl; [apply Qle_refl|].
  destruct Hms as [|m ms Hm Hms]; [apply Qle_refl|].
  pose proof (ratio_nonneg w m Hw Hm). pose proof (IH ms Hms). lra.
Qed.

(** Between the bounds [lo] and [hi] on the masses, the weighted
    denominator is squeezed by the total weight. *)
Lemma ratio_sum_bounds (lo hi : Q) (ws ms : list Q) :
  0 < lo ->
  length ms = length ws ->
  Forall (fun w => 0 <= w) ws ->
  Forall (fun m => lo <= m /\ m <= hi) ms ->
  lo * ratio_sum ws ms <= total ws /\ total ws <= hi * ratio_sum ws ms.
Proof.
  intros Hlo Hlen Hws. revert ms Hlen.
  induction Hws as [|w ws Hw _ IH]; intros [|m ms] Hlen Hms; simpl in *;
    try discriminate.
  - split; rewrite Qmult_0_r; apply Qle_refl.
  - apply Forall_cons_1 in Hms as [[Hl Hh] Hms].
    destruct (IH ms) as [IH1 IH2]; [congruence | assumption |].
    assert (Hm : 0 < m) by (eapply Qlt_le_trans; eassumption).
    assert (Hq : 0 <= w / m) by (apply ratio_nonneg; assumption).
    assert (Hwm : w == (w / m) * m) by (field; lra).
    set (q := w / m) in *.
    assert (H1 : lo * q <= w) by nra.
    assert (H2 : w <= hi * q) by nra.
    split; lra.
Qed.

End Sums.

(** ** The weight-percent calculator *)

Section WeightPercentFacts.

Local Open Scope Q_scope.
Import WeightPercent.

Lemma Qlt_bool_iff (x y : Q) : Qlt_bool x y = true <-> x < y.
Proof.
  unfold Qlt_bool. rewrite negb_true_iff, <- not_true_iff_false, Qle_bool_iff.
  split; [apply Qnot_le_lt | apply Qlt_not_le].
Qed.

Lemma Qlt_bool_false_iff (x y : Q) : Qlt_bool x y = false <-> ~ x < y.
Proof. rewrite <- Qlt_bool_iff. symmetry. apply not_true_iff_false. Qed.

Lemma any_nonpositive_false (ms : list Q) :
  Py.any (fun m => Qle_bool m 0) ms = false <-> Forall (fun m => 0 < m) ms.
Proof.
  unfold Py.any. induction ms as [|m ms IH]; simpl.
  - split; [constructor | reflexivity].
  - rewrite orb_false_iff, IH, Forall_cons_iff.
    rewrite <- not_true_iff_false, Qle_bool_iff.
    split; intros [H1 H2]; split; auto using Qnot_le_lt, Qlt_not_le.
Qed.

Lemma any_negative_false (ws : list Q) :
  Py.any (fun w => Qlt_bool w 0) ws = false <-> Forall (fun w => 0 <= w) ws.
Proof.
  unfold Py.any. induction ws as [|w ws IH]; simpl.
  - split; [constructor | reflexivity].
  - rewrite orb_false_iff, IH, Forall_cons_iff, Qlt_bool_false_iff.
    split; intros [H1 H2]; split; auto using Qnot_lt_le, Qle_not_lt.
Qed.

Lemma any_nonpositive_true (ms : list Q) :
  Py.any (fun m => Qle_bool m 0) ms = true <-> Exists (fun m => m <= 0) ms.
Proof.
  unfold Py.any. induction ms as [|m ms IH]; simpl.
  - rewrite Exists_nil. split; [discriminate | tauto].
  - now rewrite orb_true_iff, IH, Exists_cons, Qle_bool_iff.
Qed.

Lemma any_negative_true (ws : list Q) :
  Py.any (fun w => Qlt_bool w 0) ws = true <-> Exists (fun w => w < 0) ws.
Proof.
  unfold Py.any. induction ws as [|w ws IH]; simpl.
  - rewrite Exists_nil. split; [discriminate | tauto].
  - now rewrite orb_true_iff, IH, Exists_cons, Qlt_bool_iff.
Qed.

Lemma ratio_sum_pos (ws ms : list Q) :
  length ms = length ws ->
  Forall (fun w => 0 <= w) ws -> Forall (fun m => 0 < m) ms ->
  0 < total ws -> 0 < ratio_sum ws ms.
Proof.
  intros Hlen Hws. revert ms Hlen.
  induction Hws as [|w ws Hw Hws IH]; intros [|m ms] Hlen Hms Htot;
    simpl in *; try discriminate; try lra.
  apply Forall_cons_1 in Hms as [Hm Hms].
  pose proof (ratio_nonneg w m Hw Hm) as Hq.
  pose proof (ratio_sum_nonneg ws ms Hws Hms) as Hr.
  destruct (Qlt_le_dec 0 w) as [Hpos|Hzero].
  - assert (0 < w / m); [|lra].
    apply Qlt_shift_div_l; [assumption | lra].
  - assert (0 < ratio_sum ws ms); [|lra].
    apply IH; [congruence | assumption | lra].
Qed.

Lemma ratio_sum_scaled (c : Q) (ws ms : list Q) :
  ratio_sum (map (fun w => w / c) ws) ms == ratio_sum ws ms / c.
Proof.
  revert ms. induction ws as [|w ws IH]; intros [|m ms]; simpl;
    try (unfold Qdiv; ring).
  rewrite IH. unfold Qdiv. ring.
Qed.

Lemma composition_total_pos (masses weights : list Q) :
  composition masses weights -> 0 < total weights.
Proof.
  intros (_ & _ & Hws & Hne). pose proof (total_nonneg weights Hws) as H.
  destruct (Qlt_le_dec 0 (total weights)) as [|Hle]; [assumption|].
  exfalso. apply Hne. lra.
Qed.

Lemma composition_ratio_pos (masses weights : list Q) :
  composition masses weights -> 0 < ratio_sum weights masses.
Proof.
  intros Hc. pose proof (composition_total_pos _ _ Hc).
  destruct Hc as (Hlen & Hms & Hws & _). apply ratio_sum_pos; assumption.
Qed.

(** Under the preconditions all four checks pass and so do the guards of the
    two divisions: the call is its mode test and its two formulas. *)
Lemma calculator_unfolds (masses weights : list Q) :
  composition masses weights ->
  atomic_weight_from_weight_percent masses weights =
    if Qlt_bool (Py.abs (Py.sum weights - 100)) 1
    then Return (Py.sum weights / denominator weights masses)
    else Return (1 / denominator (map (fun w => w / Py.sum weights) weights)
                       masses).
Proof.
  intros Hc.
  pose proof (composition_total_pos _ _ Hc) as Htot.
  pose proof (composition_ratio_pos _ _ Hc) as Hden.
  destruct Hc as (Hlen & Hms & Hws & Hne).
  unfold atomic_weight_from_weight_percent.
  rewrite Hlen, Nat.eqb_refl. simpl negb. cbv iota.
  rewrite (proj2 (any_nonpositive_false masses) Hms).
  rewrite (proj2 (any_negative_false weights) Hws).
  assert (E0 : Qeq_bool (Py.sum weights) 0 = false).
  { apply not_true_iff_false. rewrite Qeq_bool_iff, sum_total. assumption. }
  rewrite E0.
  assert (E1 : Qeq_bool (denominator weights masses) 0 = false).
  { apply not_true_iff_false. rewrite Qeq_bool_iff, denominator_ratio_sum.
    lra. }
  assert (E2 : Qeq_bool (denominator (map (fun w => w / Py.sum weights)
                                        weights) masses) 0 = false).
  { apply not_true_iff_false.
    rewrite Qeq_bool_iff, denominator_ratio_sum, ratio_sum_scaled, sum_total.
    intros E.
    assert (ratio_sum weights masses == 0); [|lra].
    rewrite <- (Qmult_div_r (ratio_sum weights masses) (total weights));
      [|lra].
    rewrite E. ring. }
  rewrite E1, E2. reflexivity.
Qed.

(** Both formulas have the value Σ weights / Σ (weight_i / mass_i). *)
Lemma normalized_percent_direct (masses weights : list Q) :
  composition masses weights ->
  normalized masses weights == percent_direct masses weights.
Proof.
  intros Hc.
  pose proof (composition_total_pos _ _ Hc).
  pose proof (composition_ratio_pos _ _ Hc).
  unfold normalized, percent_direct. rewrite ratio_sum_scaled.
  field. split; lra.
Qed.

Lemma calculator_value (masses weights : list Q) :
  composition masses weights ->
  exists r, atomic_weight_from_weight_percent masses weights = Return r /\
            r == percent_direct masses weights.
Proof.
  intros Hc. rewrite (calculator_unfolds _ _ Hc).
  destruct (Qlt_bool _ _); eexists; (split; [reflexivity|]).
  - unfold percent_direct. now rewrite sum_total, denominator_ratio_sum.
  - rewrite <- (normalized_percent_direct _ _ Hc). unfold normalized.
    rewrite denominator_ratio_sum, !ratio_sum_scaled, sum_total. reflexivity.
Qed.

End WeightPercentFacts.

Section Extremes.

Local Open Scope Q_scope.

Lemma fold_Qmin_lower (xs : list Q) (a : Q) :
  fold_left Qmin xs a <= a /\ Forall (fun x => fold_left Qmin xs a <= x) xs.
Proof.
  revert a. induction xs as [|x xs IH]; intros a; simpl.
  - split; [apply Qle_refl | constructor].
  - destruct (IH (Qmin a x)) as [H1 H2]. split; [|constructor; [|exact H2]].
    + eapply Qle_trans; [exact H1 | apply Q.le_min_l].
    + eapply Qle_trans; [exact H1 | apply Q.le_min_r].
Qed.

Lemma fold_Qmax_upper (xs : list Q) (a : Q) :
  a <= fold_left Qmax xs a /\ Forall (fun x => x <= fold_left Qmax xs a) xs.
Proof.
  revert a. induction xs as [|x xs IH]; intros a; simpl.
  - split; [apply Qle_refl | constructor].
  - destruct (IH (Qmax a x)) as [H1 H2]. split; [|constructor; [|exact H2]].
    + eapply Qle_trans; [apply Q.le_max_l | exact H1].
    + eapply Qle_trans; [apply Q.le_max_r | exact H1].
Qed.

Lemma fold_Qmin_pos (xs : list Q) (a : Q) :
  0 < a -> Forall (fun x => 0 < x) xs -> 0 < fold_left Qmin xs a.
Proof.
  intros Ha Hxs. revert a Ha.
  induction Hxs as [|x xs Hx _ IH]; intros a Ha; simpl; [assumption|].
  apply IH. apply Q.min_glb_lt; assumption.
Qed.

Lemma minimum_maximum_bounds (xs : list Q) :
  Forall (fun x => minimum xs <= x /\ x <= maximum xs) xs.
Proof.
  destruct xs as [|a xs]; [constructor|]. simpl.
  destruct (fold_Qmin_lower xs a) as [L1 L2].
  destruct (fold_Qmax_upper xs a) as [U1 U2].
  constructor; [split; assumption|].
  apply Forall_and. split; assumption.
Qed.

Lemma minimum_pos (xs : list Q) :
  xs <> [] -> Forall (fun x => 0 < x) xs -> 0 < minimum xs.
Proof.
  destruct xs as [|a xs]; [congruence|]. intros _ H.
  apply Forall_cons_1 in H as [Ha Hxs]. simpl. apply fold_Qmin_pos; assumption.
Qed.

End Extremes.

Section WeightPercentClaims.

Local Open Scope Q_scope.
Import WeightPercent.


(** C7.  Under the preconditions the denominator Σ(weight_i / mass_i) is
    strictly positive in either branch, so the division-by-zero error is
    never raised. *)
Theorem C7_denominator_positive (masses weights : list Q) :
  composition masses weights ->
  0 < denominator weights masses /\
  0 < denominator (map (fun w => w / Py.sum weights) weights) masses /\
  forall msg,
    atomic_weight_from_weight_percent masses weights
    <> Raise (ZeroDivisionError msg).
Proof.
  intros Hc.
  pose proof (composition_total_pos _ _ Hc) as Htot.
  pose proof (composition_ratio_pos _ _ Hc) as Hden.
  split; [|split].
  - now rewrite denominator_ratio_sum.
  - rewrite denominator_ratio_sum, ratio_sum_scaled, sum_total.
    apply Qlt_shift_div_l; [assumption | lra].
  - intros msg. rewrite (calculator_unfolds _ _ Hc).
    destruct (Qlt_bool _ _); discriminate.
Qed.

(** C10.  Under the preconditions the returned value lies between the
    least and the greatest of the masses, bounds included. *)
Theorem C10_between_extreme_masses (masses weights : list Q) :
  composition masses weights ->
  exists r,
    atomic_weight_from_weight_percent masses weights = Return r /\
    minimum masses <= r /\ r <= maximum masses.
Proof.
  intros Hc. destruct (calculator_value _ _ Hc) as (r & Hr & Hv).
  exists r. split; [exact Hr|]. rewrite Hv. unfold percent_direct.
  pose proof (composition_total_pos _ _ Hc) as Htot.
  pose proof (composition_ratio_pos _ _ Hc) as Hden.
  destruct Hc as (Hlen & Hms & Hws & Hne).
  assert (Hnil : masses <> []).
  { intros ->. destruct weights; [|discriminate]. simpl in Htot. lra. }
  pose proof (minimum_pos masses Hnil Hms) as Hlo.
  destruct (ratio_sum_bounds (minimum masses) (maximum masses) weights masses
              Hlo Hlen Hws (minimum_maximum_bounds masses)) as [B1 B2].
  split.
  - apply Qle_shift_div_l; assumption.
  - apply Qle_shift_div_r; assumption.
Qed.

Lemma errors_distinct :
  NoDup [ShapeMismatch; InvalidMass; InvalidWeight; DegenerateInput].
Proof.
  repeat (apply NoDup_cons; split;
          [rewrite ?elem_of_cons, elem_of_nil; intuition discriminate|]).
  apply NoDup_nil. exact I.
Qed.

(** A call that raises has failed one of the four checks. *)
Lemma raises_has_cause (masses weights : list Q) :
  raises (atomic_weight_from_weight_percent masses weights) ->
  length masses <> length weights \/ Exists (fun m => m <= 0) masses \/
  Exists (fun w => w < 0) weights \/ total weights == 0.
Proof.
  intros [e He].
  destruct (Nat.eq_dec (length masses) (length weights)) as [Hlen|Hlen];
    [|left; exact Hlen].
  destruct (Py.any (fun m => Qle_bool m 0) masses) eqn:Em;
    [right; left; now apply any_nonpositive_true|].
  destruct (Py.any (fun w => Qlt_bool w 0) weights) eqn:Ew;
    [right; right; left; now apply any_negative_true|].
  destruct (Qeq_bool (Py.sum weights) 0) eqn:Es.
  - right; right; right. apply Qeq_bool_iff in Es. now rewrite <- sum_total.
  - exfalso.
    assert (Hc : composition masses weights).
    { split; [exact Hlen|]. split; [now apply any_nonpositive_false|].
      split; [now apply any_negative_false|].
      apply Qeq_bool_neq in Es. now rewrite <- sum_total. }
    destruct (calculator_value _ _ Hc) as (r & Hr & _). congruence.
Qed.

Lemma sum_zero_guard (ws : list Q) :
  total ws == 0 -> Qeq_bool (Py.sum ws) 0 = true.
Proof. intros H. apply Qeq_bool_iff. now rewrite sum_total. Qed.

(** Turns the hypotheses on the inputs into the values of the guards. *)
Ltac reflect_guards :=
  intros;
  repeat match goal with
    | H : length _ <> length _ |- _ => apply Nat.eqb_neq in H
    | H : length _ = length _ |- _ => apply Nat.eqb_eq in H
    | H : Exists (fun m => m <= 0) _ |- _ => apply any_nonpositive_true in H
    | H : Forall (fun m => 0 < m) _ |- _ => apply any_nonpositive_false in H
    | H : Exists (fun w => w < 0) _ |- _ => apply any_negative_true in H
    | H : Forall (fun w => 0 <= w) _ |- _ => apply any_negative_false in H
    | H : total _ == 0 |- _ => apply sum_zero_guard in H
    end.

(** C4.  The four precondition checks are made in order and each raises
    its own error: unequal lengths raise ShapeMismatch; otherwise a mass
    that is zero or negative raises InvalidMass; otherwise a negative
    weight raises InvalidWeight; otherwise weights summing to zero raise
    DegenerateInput.  The four errors are pairwise distinct; whenever one of
    the four conditions holds the call returns no value and raises one of
    them; and a call that raises has met one of the four conditions. *)
Theorem C4_precondition_errors (masses weights : list Q) :
  let call := atomic_weight_from_weight_percent masses weights in
  (length masses <> length weights -> call = Raise ShapeMismatch) /\
  (length masses = length weights ->
   Exists (fun m => m <= 0) masses -> call = Raise InvalidMass) /\
  (length masses = length weights ->
   Forall (fun m => 0 < m) masses ->
   Exists (fun w => w < 0) weights -> call = Raise InvalidWeight) /\
  (length masses = length weights ->
   Forall (fun m => 0 < m) masses ->
   Forall (fun w => 0 <= w) weights ->
   total weights == 0 -> call = Raise DegenerateInput) /\
  NoDup [ShapeMismatch; InvalidMass; InvalidWeight; DegenerateInput] /\
  (length masses <> length weights \/ Exists (fun m => m <= 0) masses \/
   Exists (fun w => w < 0) weights \/ total weights == 0 ->
   ~ returns call /\
   In call (map Raise [ShapeMismatch; InvalidMass; InvalidWeight;
                       DegenerateInput])).
Proof.
  intros call. subst call. unfold atomic_weight_from_weight_percent.
  destruct (Nat.eqb (length masses) (length weights)) eqn:El; simpl negb;
    cbv iota;
    [ destruct (Py.any (fun m => Qle_bool m 0) masses) eqn:Em;
      [ | destruct (Py.any (fun w => Qlt_bool w 0) weights) eqn:Ew;
          [ | destruct (Qeq_bool (Py.sum weights) 0) eqn:Es ] ] | ];
    refine (conj _ (conj _ (conj _ (conj _ (conj errors_distinct _)))));
    try (reflect_guards; congruence);
    try (intros _; split; [intros [a Ha]; discriminate | simpl; tauto]);
    intros [H|[H|[H|H]]]; reflect_guards; congruence.
Qed.

End WeightPercentClaims.

Section WeightPercentExamples.

Local Open Scope Q_scope.
Import WeightPercent.

(** Decides the preconditions on explicit sequences. *)
Ltac concrete_composition :=
  unfold composition;
  split; [reflexivity|];
  split; [repeat (apply Forall_cons; split; [reflexivity|]); apply Forall_nil; exact I|];
  split; [repeat (apply Forall_cons; split; [discriminate|]); apply Forall_nil; exact I|];
  let H := fresh in intros H; vm_compute in H; discriminate H.


Lemma C7_denominator_positive_witness :
  composition [2; 4] [1; 1] /\
  0 < denominator [1; 1] [2; 4] /\
  0 < denominator (map (fun w => w / Py.sum [1; 1]) [1; 1]) [2; 4] /\
  forall msg,
    atomic_weight_from_weight_percent [2; 4] [1; 1]
    <> Raise (ZeroDivisionError msg).
Proof.
  assert (H : composition [2; 4] [1; 1]) by concrete_composition.
  split; [exact H | exact (C7_denominator_positive [2; 4] [1; 1] H)].
Defined.

Lemma C10_between_extreme_masses_witness :
  composition [2; 4] [99; 1] /\
  exists r,
    atomic_weight_from_weight_percent [2; 4] [99; 1] = Return r /\
    minimum [2; 4] <= r /\ r <= maximum [2; 4].
Proof.
  assert (H : composition [2; 4] [99; 1]) by concrete_composition.
  split; [exact H | exact (C10_between_extreme_masses [2; 4] [99; 1] H)].
Defined.

Lemma C4_precondition_errors_witness :
  atomic_weight_from_weight_percent [1; 2; 3] [50; 50] = Raise ShapeMismatch /\
  atomic_weight_from_weight_percent [1; 0] [50; 50] = Raise InvalidMass /\
  atomic_weight_from_weight_percent [1; 2] [50; -50] = Raise InvalidWeight /\
  atomic_weight_from_weight_percent [1; 2] [0; 0] = Raise DegenerateInput.
Proof.
  split; [|split; [|split]].
  - apply (proj1 (C4_precondition_errors [1; 2; 3] [50; 50])).
    simpl. lia.
  - apply (proj1 (proj2 (C4_precondition_errors [1; 0] [50; 50])));
      [reflexivity|].
    apply Exists_cons_tl, Exists_cons_hd. discriminate.
  - apply (proj1 (proj2 (proj2 (C4_precondition_errors [1; 2] [50; -50]))));
      [reflexivity | |].
    + repeat (apply Forall_cons; split; [reflexivity|]). apply Forall_nil.
      exact I.
    + apply Exists_cons_tl, Exists_cons_hd. reflexivity.
  - apply (proj1 (proj2 (proj2 (proj2
             (C4_precondition_errors [1; 2] [0; 0])))));
      [reflexivity | | | reflexivity].
    + repeat (apply Forall_cons; split; [reflexivity|]). apply Forall_nil.
      exact I.
    + repeat (apply Forall_cons; split; [discriminate|]). apply Forall_nil.
      exact I.
Defined.

End WeightPercentExamples.

(** ** Percent inputs and fraction inputs *)

Section PercentFraction.

Local Open Scope Q_scope.
Import WeightPercent.










End PercentFraction.

(** ** The natural atomic-weight calculator *)

Section NaturalWeight.

Local Open Scope Q_scope.
Import IsotopesDb.
Context {env : Env}.

Lemma truthy_lookup (db : table) (k : string) (v : list Isotope) :
  db !! k = Some v -> truthy db = true.
Proof.
  intros Hk. unfold truthy. apply negb_true_iff, Nat.eqb_neq.
  intros Hs. apply map_size_empty_iff in Hs. subst db.
  rewrite lookup_empty in Hk. discriminate.
Qed.

Lemma truthy_nonempty (db : table) : db <> ∅ -> truthy db = true.
Proof.
  intros Hne. unfold truthy. apply negb_true_iff, Nat.eqb_neq.
  intros Hs. apply Hne. now apply map_size_empty_iff.
Qed.

Lemma truthy_empty : truthy ∅ = false.
Proof. reflexivity. Qed.

(** When the canonical symbol is in the table given, the call is the
    abundance gate followed by the weighted sum. *)
Lemma atomic_weight_found (symbol : string) (db : table)
    (isotopes : list Isotope) :
  db !! normalize_symbol symbol = Some isotopes ->
  atomic_weight symbol (Some db) =
    let total_abund := Py.sum (map abundance_percent isotopes) in
    if Qlt_bool 0.5 (Py.abs (total_abund - 100))
    then Raise (DataInconsistency (normalize_symbol symbol) total_abund)
    else Return (Py.sum (map (fun i => (abundance_percent i / 100) * mass_u i)
                           isotopes)).
Proof.
  intros Hk. unfold atomic_weight, db_or_default.
  rewrite (truthy_lookup _ _ _ Hk). simpl. rewrite Hk. reflexivity.
Qed.




Lemma mentions_middle (pre part post : string) :
  mentions (pre ++ part ++ post)%string part.
Proof. exists pre, post. reflexivity. Qed.



(** C6, amended.  For every non-empty table and every input symbol whose
    canonical form is absent from it, the call raises the not-found error,
    whose message names the canonical symbol, and returns no value; the
    empty table is treated as no table at all. *)
Theorem C6_not_found_in_nonempty_table (symbol : string) :
  (forall db : table,
      db <> ∅ ->
      db !! normalize_symbol symbol = None ->
      atomic_weight symbol (Some db)
      = Raise (NotFound (normalize_symbol symbol)) /\
      ~ returns (atomic_weight symbol (Some db))) /\
  mentions (message (NotFound (normalize_symbol symbol)))
    (normalize_symbol symbol) /\
  atomic_weight symbol (Some ∅) = atomic_weight symbol None.
Proof.
  split; [|split].
  - intros db Hne Hk. unfold atomic_weight, db_or_default.
    rewrite (truthy_nonempty _ Hne). simpl. rewrite Hk.
    split; [reflexivity | intros [a Ha]; discriminate].
  - apply (mentions_middle "No stable isotope data for element symbol '").
  - reflexivity.
Qed.

End NaturalWeight.

Section NaturalWeightExamples.

Local Open Scope Q_scope.
Import IsotopesDb Plain.

(** C6 as stated fails on the empty table: with no table file, the symbol Sn
    is answered from the built-in seed. *)
Lemma C6_empty_table_uses_default : ~ absent_symbol_not_found.
Proof.
  intros H. specialize (H no_files ∅ "Sn" (lookup_empty _)).
  vm_compute in H. discriminate H.
Qed.

Lemma C6_not_found_in_nonempty_table_witness :
  @atomic_weight no_files "Xx" (Some gold_table)
  = Raise (NotFound (normalize_symbol "Xx")) /\
  ~ returns (@atomic_weight no_files "Xx" (Some gold_table)).
Proof.
  apply (proj1 (@C6_not_found_in_nonempty_table no_files "Xx") gold_table).
  - intros E. apply (f_equal (fun m : table => m !! "Au")) in E.
    vm_compute in E. discriminate E.
  - vm_compute. reflexivity.
Defined.



End NaturalWeightExamples.

(** ** Symbols: trimming and case *)

Section Symbols.

Import IsotopesDb.

#[local] Arguments is_space : simpl never.
#[local] Arguments upper_char : simpl never.
#[local] Arguments lower_char : simpl never.

Ltac by_cases_on_char c :=
  destruct c as [[] [] [] [] [] [] [] []]; vm_compute; reflexivity.

Lemma upper_char_idem (c : ascii) : upper_char (upper_char c) = upper_char c.
Proof. by_cases_on_char c. Qed.

Lemma lower_char_idem (c : ascii) : lower_char (lower_char c) = lower_char c.
Proof. by_cases_on_char c. Qed.












(** The symbol looked up is the canonical case of the trimmed input. *)
Lemma normalize_symbol_canonical (s : string) :
  normalize_symbol s = canonical_case (strip s).
Proof.
  unfold normalize_symbol, strip, upper, lower, item.
  destruct s as [|a [|b [|c s]]].
  - reflexivity.
  - destruct (is_space a) eqn:Ea;
      repeat (progress (simpl; rewrite ?Ea)); [reflexivity|].
    now rewrite upper_char_idem.
  - destruct (is_space a) eqn:Ea, (is_space b) eqn:Eb;
      repeat (progress (simpl; rewrite ?Ea, ?Eb));
      rewrite ?upper_char_idem, ?lower_char_idem; reflexivity.
  - change (String.length (String a (String b (String c s))) <=? 2)%nat
      with false.
    cbv iota.
    destruct (rstrip (lstrip (String a (String b (String c s)))))
      as [|x [|y [|z t]]]; reflexivity.
Qed.



Context {env : Env}.



End Symbols.

Section SymbolExamples.

Import IsotopesDb Plain.


End SymbolExamples.

(** ** The table loader *)

Section Loader.

Import IsotopesDb.
Context {env : Env}.

Lemma sorted_by_A_nil : sorted_by_A [] = [].
Proof. reflexivity. Qed.

(** The row filter of the loader, against the marker of the field: they
    agree whenever the row has a [stable] cell, and a row without the column
    passes the filter. *)
Lemma marked_stable_cases (row : csv_row) :
  marked_stable row = true <->
  true_marker row = true \/ row !! "stable" = None.
Proof.
  unfold marked_stable, true_marker.
  destruct (row !! "stable") as [[s|]|].
  - split; [auto | intros [H|H]; [exact H | discriminate H]].
  - split; [intros H; vm_compute in H; discriminate H
           | intros [H|H]; discriminate H].
  - split; [auto | intros _; vm_compute; reflexivity].
Qed.

(** The loop appends, under each symbol and in the order of the file, the
    records of the rows that pass the filter. *)
Lemma load_rows_records (rows : list csv_row) (db0 db : table) :
  load_rows rows db0 = Return db ->
  forall sym,
    default [] (db !! sym)
    = default [] (db0 !! sym)
      ++ filter (fun iso => symbol iso = sym)
           (omap make_isotope
              (filter (fun row => marked_stable row = true) rows)).
Proof.
  revert db0. induction rows as [|row rows IH]; intros db0 Hload sym.
  - injection Hload as <-. now rewrite app_nil_r.
  - simpl in Hload. rewrite filter_cons.
    destruct (marked_stable row) eqn:Em; simpl in Hload.
    + rewrite decide_True by reflexivity. simpl.
      destruct (make_isotope row) as [iso|]; [|discriminate Hload].
      rewrite (IH _ Hload sym), filter_cons.
      destruct (decide (symbol iso = sym)) as [->|Hne].
      * rewrite lookup_insert_eq. simpl. now rewrite <- app_assoc.
      * now rewrite lookup_insert_ne.
    + rewrite decide_False by discriminate. now apply IH.
Qed.

Lemma load_rows_returns (rows : list csv_row) (db0 : table) :
  returns (load_rows rows db0) <->
  Forall (fun row => marked_stable row = true -> is_Some (make_isotope row))
    rows.
Proof.
  revert db0. induction rows as [|row rows IH]; intros db0; simpl.
  - split; [constructor | intros _; eexists; reflexivity].
  - rewrite Forall_cons. destruct (marked_stable row); simpl.
    + destruct (make_isotope row) as [iso|].
      * rewrite IH. split; [intros H; split; [eauto | exact H] | tauto].
      * split; [intros [db Hdb]; discriminate Hdb|].
        intros [H _]. destruct (H eq_refl) as [iso Hiso]. discriminate Hiso.
    + rewrite IH. split; [intros H; split; [discriminate | exact H] | tauto].
Qed.

(** C9, amended.  The loader reads a file if and only if every row that
    passes its filter converts to a record, and the resulting table then
    holds, under each symbol and sorted by mass number, the records of
    exactly the rows that pass the filter.  A row passes when its stability
    field, trimmed and lower-cased, is one of the markers meaning true, and
    also when it has no stability column at all (the field then defaults to
    True); a row whose stability cell is present without being such a marker
    is excluded. *)
Theorem C9_loader_keeps_marked_rows (path : string) (rows : list csv_row) :
  files path = Some rows ->
  (returns (load_csv path) <->
   Forall (fun row => marked_stable row = true -> is_Some (make_isotope row))
     rows) /\
  (forall db,
      load_csv path = Return db ->
      forall sym, default [] (db !! sym) = records_of marked_stable rows sym) /\
  (forall row,
      marked_stable row = true <->
      true_marker row = true \/ row !! "stable" = None).
Proof.
  intros Hfile. unfold load_csv. rewrite Hfile.
  split; [|split; [|exact marked_stable_cases]].
  - rewrite <- (load_rows_returns rows ∅).
    destruct (load_rows rows ∅) as [db|e]; simpl.
    + split; intros _; eexists; reflexivity.
    + split; intros [db Hdb]; discriminate Hdb.
  - intros db Hload sym.
    destruct (load_rows rows ∅) as [db0|e] eqn:Hrows; simpl in Hload;
      [|discriminate Hload].
    injection Hload as <-. rewrite lookup_fmap.
    pose proof (load_rows_records rows ∅ db0 Hrows sym) as Hrec.
    rewrite lookup_empty in Hrec. simpl in Hrec.
    unfold records_of. rewrite <- Hrec.
    now destruct (db0 !! sym).
Qed.

End Loader.

Section LoaderExamples.

Import IsotopesDb Plain.

(** C9 as stated fails on a file whose header has no [stable] column: its
    row carries no marker, and its record is in the table all the same. *)
Lemma C9_row_without_stable_column_is_kept : ~ loader_keeps_true_markers.
Proof.
  intros H.
  specialize (H (one_file "isotopes.csv" [unmarked_row]) "isotopes.csv"
                [unmarked_row] gold_table eq_refl).
  assert (Hload : @load_csv (one_file "isotopes.csv" [unmarked_row])
                    "isotopes.csv" = Return gold_table)
    by (vm_compute; reflexivity).
  specialize (H Hload "Au"). vm_compute in H. discriminate H.
Qed.

Lemma C9_loader_keeps_marked_rows_witness :
  default [] (({[ "Au" := [gold; gold] ]} : table) !! "Au")
  = @records_of (one_file "isotopes.csv"
                   [unmarked_row; blank_marker_row; marked_row])
      marked_stable [unmarked_row; blank_marker_row; marked_row] "Au".
Proof.
  apply (proj1 (proj2 (@C9_loader_keeps_marked_rows
                         (one_file "isotopes.csv"
                            [unmarked_row; blank_marker_row; marked_row])
                         "isotopes.csv"
                         [unmarked_row; blank_marker_row; marked_row]
                         eq_refl))).
  vm_compute. reflexivity.
Defined.

End LoaderExamples.

(** ** The model of [sorted] and a few runs *)

Section Sorting.

Import IsotopesDb.

Lemma insert_by_A_perm (x : Isotope) (l : list Isotope) :
  insert_by_A x l ≡ₚ x :: l.
Proof.
  induction l as [|y l IH]; simpl; [reflexivity|].
  destruct (A x <=? A y)%Z; [reflexivity|].
  rewrite IH. apply Permutation_swap.
Qed.

Lemma sorted_by_A_perm (l : list Isotope) : sorted_by_A l ≡ₚ l.
Proof.
  induction l as [|x l IH]; simpl; [reflexivity|].
  now rewrite insert_by_A_perm, IH.
Qed.

Lemma insert_by_A_sorted (x : Isotope) (l : list Isotope) :
  Sorted by_mass_number l -> Sorted by_mass_number (insert_by_A x l).
Proof.
  induction 1 as [|y l Hs IH Hd]; simpl.
  - repeat constructor.
  - destruct (A x <=? A y)%Z eqn:E.
    + apply Z.leb_le in E. repeat constructor; assumption.
    + apply Z.leb_gt in E. constructor; [exact IH|].
      destruct Hd as [|z l Hyz]; simpl.
      * constructor. unfold by_mass_number. lia.
      * destruct (A x <=? A z)%Z; constructor; unfold by_mass_number in *; lia.
Qed.

Lemma sorted_by_A_sorted (l : list Isotope) :
  Sorted by_mass_number (sorted_by_A l).
Proof.
  induction l as [|x l IH]; simpl; [constructor|].
  now apply insert_by_A_sorted.
Qed.

End Sorting.

Section Runs.

Local Open Scope Q_scope.
Import IsotopesDb Plain.

(** The built-in seed gives tin its standard atomic weight. *)
Example tin_from_seed :
  exists r, @atomic_weight no_files "sn" None = Return r /\ approx 0.01 r 118.71.
Proof. eexists. split; [vm_compute; reflexivity | vm_compute; discriminate]. Qed.

Example strip_pads : strip (String "009" " sn  ") = "sn".
Proof. reflexivity. Qed.

Example capitalize_mixed : capitalize "sN" = "Sn".
Proof. reflexivity. Qed.

Example format_3f_ties_to_even :
  format_3f 100.1225 = "100.122" /\ format_3f 100.1235 = "100.124".
Proof. split; vm_compute; reflexivity. Qed.

Example format_3f_small_negative : format_3f (-0.0004) = "-0.000".
Proof. vm_compute. reflexivity. Qed.

Example short_line_is_skipped :
  marked_stable (<["stable" := None]> unmarked_row) = false.
Proof. vm_compute. reflexivity. Qed.

Example bad_row_stops_the_load :
  @load_csv (one_file "isotopes.csv"
               [<["A" := Some "one hundred"]> marked_row])
    "isotopes.csv" = Raise (ValueError "Bad row in CSV").
Proof. vm_compute. reflexivity. Qed.

End Runs.

(** * Further properties of the code *)

(** ** The weight-percent calculator: what the value depends on *)

Section WeightPercentMore.

Local Open Scope Q_scope.
Import WeightPercent.



Lemma composition_cons (m w : Q) (masses weights : list Q) :
  0 < m -> 0 <= w -> composition masses weights ->
  composition (m :: masses) (w :: weights).
Proof.
  intros Hm Hw H. pose proof (composition_total_pos _ _ H) as Htot.
  destruct H as (Hlen & Hms & Hws & _).
  split; [simpl; congruence|]. split; [now constructor|].
  split; [now constructor|]. simpl. lra.
Qed.

Lemma composition_single (m w : Q) : 0 < m -> 0 < w -> composition [m] [w].
Proof.
  intros Hm Hw. split; [reflexivity|].
  split; [repeat constructor; assumption|].
  split; [repeat constructor; lra|]. simpl. lra.
Qed.

(** One isotope: the value is its mass, whatever the positive weight. *)
Theorem single_isotope_mass (m w : Q) :
  0 < m -> 0 < w ->
  exists r,
    atomic_weight_from_weight_percent [m] [w] = Return r /\ r == m.
Proof.
  intros Hm Hw.
  destruct (calculator_value _ _ (composition_single m w Hm Hw))
    as (r & Hr & Hv).
  exists r. split; [exact Hr|]. rewrite Hv. unfold percent_direct. simpl.
  field. lra.
Qed.


(** An isotope of weight zero does not change the value. *)
Theorem zero_weight_isotope_ignored (m : Q) (masses weights : list Q) :
  0 < m ->
  composition masses weights ->
  exists r r',
    atomic_weight_from_weight_percent masses weights = Return r /\
    atomic_weight_from_weight_percent (m :: masses) (0 :: weights)
    = Return r' /\
    r == r'.
Proof.
  intros Hm Hc.
  destruct (calculator_value _ _ Hc) as (r & Hr & Hv).
  destruct (calculator_value _ _
              (composition_cons m 0 _ _ Hm (Qle_refl 0) Hc))
    as (r' & Hr' & Hv').
  exists r, r'. split; [exact Hr|]. split; [exact Hr'|].
  rewrite Hv, Hv'. unfold percent_direct. simpl.
  pose proof (composition_ratio_pos _ _ Hc).
  field. split; lra.
Qed.






End WeightPercentMore.

(** ** The weight-percent calculator: bounds and failures *)

Section WeightPercentBounds.

Local Open Scope Q_scope.
Import WeightPercent.






(** In exact arithmetic the guard of the divisions is dead code: whatever
    the input, the call returns a value or raises one of the four
    precondition errors, and never the division-by-zero error. *)
Theorem outcome_is_value_or_precondition_error (masses weights : list Q) :
  (returns (atomic_weight_from_weight_percent masses weights) \/
   In (atomic_weight_from_weight_percent masses weights)
     (map Raise [ShapeMismatch; InvalidMass; InvalidWeight;
                 DegenerateInput])) /\
  forall msg,
    atomic_weight_from_weight_percent masses weights
    <> Raise (ZeroDivisionError msg).
Proof.
  destruct (Nat.eqb (length masses) (length weights)) eqn:El;
    [destruct (Py.any (fun m => Qle_bool m 0) masses) eqn:Em;
     [|destruct (Py.any (fun w => Qlt_bool w 0) weights) eqn:Ew;
       [|destruct (Qeq_bool (Py.sum weights) 0) eqn:Es]]|].
  5:{ unfold atomic_weight_from_weight_percent. rewrite El. simpl.
      split; [right; tauto | discriminate]. }
  1:{ unfold atomic_weight_from_weight_percent. rewrite El, Em. simpl.
      split; [right; tauto | discriminate]. }
  1:{ unfold atomic_weight_from_weight_percent. rewrite El, Em, Ew. simpl.
      split; [right; tauto | discriminate]. }
  1:{ unfold atomic_weight_from_weight_percent. rewrite El, Em, Ew, Es. simpl.
      split; [right; tauto | discriminate]. }
  assert (Hc : composition masses weights).
  { split; [now apply Nat.eqb_eq|]. split; [now apply any_nonpositive_false|].
    split; [now apply any_negative_false|].
    apply Qeq_bool_neq in Es. now rewrite <- sum_total. }
  destruct (calculator_value _ _ Hc) as (r & Hr & _). rewrite Hr.
  split; [left; eexists; reflexivity | discriminate].
Qed.

End WeightPercentBounds.

Section WeightPercentMoreExamples.

Local Open Scope Q_scope.
Import WeightPercent.

Ltac explicit_composition :=
  unfold composition;
  split; [reflexivity|];
  split; [repeat (apply Forall_cons; split; [reflexivity|]);
          apply Forall_nil; exact I|];
  split; [repeat (apply Forall_cons; split; [discriminate|]);
          apply Forall_nil; exact I|];
  let H := fresh in intros H; vm_compute in H; discriminate H.

Lemma single_isotope_mass_witness :
  exists r,
    atomic_weight_from_weight_percent [196.96657] [7] = Return r /\
    r == 196.96657.
Proof. apply single_isotope_mass; reflexivity. Defined.


Lemma zero_weight_isotope_ignored_witness :
  exists r r',
    atomic_weight_from_weight_percent [2; 4] [99; 1] = Return r /\
    atomic_weight_from_weight_percent [3; 2; 4] [0; 99; 1] = Return r' /\
    r == r'.
Proof.
  apply (zero_weight_isotope_ignored 3 [2; 4] [99; 1]).
  - reflexivity.
  - explicit_composition.
Defined.




End WeightPercentMoreExamples.

(** ** Symbols: idempotence and the symbols that are left alone *)

Section SymbolsMore.

Import IsotopesDb.

#[local] Arguments is_space : simpl never.
#[local] Arguments upper_char : simpl never.
#[local] Arguments lower_char : simpl never.

Lemma lstrip_head (s : string) :
  lstrip s = "" \/ exists c r, lstrip s = String c r /\ is_space c = false.
Proof.
  induction s as [|c s IH]; [left; reflexivity|]. simpl.
  destruct (is_space c) eqn:Ec; [exact IH|]. right. eauto.
Qed.

Lemma rstrip_keeps_head (c : ascii) (r : string) :
  is_space c = false -> exists r', rstrip (String c r) = String c r'.
Proof.
  intros Hc. simpl. rewrite Hc. destruct (rstrip r); eauto.
Qed.

Lemma rstrip_cons (c : ascii) (s : string) :
  rstrip s <> "" -> rstrip (String c s) = String c (rstrip s).
Proof. intros H. simpl. destruct (rstrip s); [congruence | reflexivity]. Qed.

Lemma rstrip_idem (s : string) : rstrip (rstrip s) = rstrip s.
Proof.
  induction s as [|c s IH]; [reflexivity|]. simpl.
  destruct (rstrip s) as [|d r] eqn:E.
  - destruct (is_space c) eqn:Ec; [reflexivity|]. simpl. now rewrite Ec.
  - rewrite rstrip_cons; rewrite IH; [reflexivity | discriminate].
Qed.

(** Trimming twice is trimming once. *)
Lemma strip_idem (s : string) : strip (strip s) = strip s.
Proof.
  unfold strip. destruct (lstrip_head s) as [E|(c & r & E & Hc)]; rewrite E.
  - reflexivity.
  - destruct (rstrip_keeps_head c r Hc) as [r' Hr]. rewrite Hr.
    simpl lstrip. rewrite Hc. rewrite <- Hr. apply rstrip_idem.
Qed.



(** A symbol of three characters or more is trimmed and otherwise looked up
    as it is typed: its case is not changed. *)
Theorem long_symbol_keeps_case (s : string) :
  (3 <= String.length (strip s))%nat ->
  normalize_symbol s = strip s.
Proof.
  intros Hlen. rewrite normalize_symbol_canonical.
  destruct (strip s) as [|c1 [|c2 [|c3 t]]]; simpl in *; try lia.
  reflexivity.
Qed.

End SymbolsMore.

Section SymbolsMoreExamples.

Import IsotopesDb.

Lemma long_symbol_keeps_case_witness : normalize_symbol " uue " = "uue".
Proof. apply (long_symbol_keeps_case " uue "). simpl. lia. Defined.

End SymbolsMoreExamples.

(** ** The loader: what a loaded table looks like and how loading fails *)

Section LoaderMore.

Import IsotopesDb.
Context {env : Env}.

Lemma make_isotope_record (row : csv_row) (iso : Isotope) :
  make_isotope row = Some iso -> loaded_record (symbol iso) iso.
Proof.
  unfold make_isotope. intros H.
  destruct (cell row "element") as [e|]; [|discriminate H].
  destruct (cell row "symbol") as [s|]; [|discriminate H].
  simpl in H.
  destruct (cell row "A" ≫= py_int) as [a|]; [|discriminate H].
  destruct (cell row "mass_u" ≫= py_float) as [m|]; [|discriminate H].
  destruct (cell row "abundance_percent" ≫= py_float) as [p|];
    [|discriminate H].
  simpl in H. injection H as <-. simpl.
  repeat split; apply strip_idem.
Qed.

Lemma load_rows_well_keyed (rows : list csv_row) (db0 db : table) :
  well_keyed db0 -> load_rows rows db0 = Return db -> well_keyed db.
Proof.
  revert db0. induction rows as [|row rows IH]; intros db0 Hinv Hload.
  - injection Hload as <-. exact Hinv.
  - simpl in Hload. destruct (marked_stable row); simpl in Hload;
      [|exact (IH _ Hinv Hload)].
    destruct (make_isotope row) as [iso|] eqn:Hiso; [|discriminate Hload].
    refine (IH _ _ Hload). clear IH Hload.
    intros sym l. destruct (decide (symbol iso = sym)) as [<-|Hne].
    + rewrite lookup_insert_eq. intros [= <-]. split.
      * intros E. apply app_eq_nil in E as [_ E]. discriminate E.
      * apply Forall_app. split.
        -- destruct (db0 !! symbol iso) as [l0|] eqn:E0; simpl;
             [exact (proj2 (Hinv _ _ E0)) | constructor].
        -- constructor; [exact (make_isotope_record row iso Hiso) | constructor].
    + rewrite lookup_insert_ne by exact Hne. apply Hinv.
Qed.

(** Rows that are not marked stable are skipped before anything else of them
    is read. *)
Lemma load_rows_filter (rows : list csv_row) (db0 : table) :
  load_rows rows db0
  = load_rows (filter (fun row => marked_stable row = true) rows) db0.
Proof.
  revert db0. induction rows as [|row rows IH]; intros db0; [reflexivity|].
  rewrite filter_cons.
  destruct (decide (marked_stable row = true)) as [Hm|Hm]; simpl.
  - rewrite Hm. simpl. destruct (make_isotope row); [apply IH | reflexivity].
  - apply not_true_is_false in Hm. rewrite Hm. simpl. apply IH.
Qed.

Lemma load_rows_first_bad (good rest : list csv_row) (bad : csv_row)
    (db0 : table) :
  Forall (fun row => marked_stable row = true -> is_Some (make_isotope row))
    good ->
  marked_stable bad = true ->
  make_isotope bad = None ->
  load_rows (good ++ bad :: rest) db0 = Raise (ValueError (bad_row_message bad)).
Proof.
  intros Hgood Hm Hbad. revert db0.
  induction Hgood as [|row good Hrow _ IH]; intros db0; simpl.
  - now rewrite Hm, Hbad.
  - destruct (marked_stable row); simpl; [|apply IH].
    destruct (Hrow eq_refl) as [iso ->]. apply IH.
Qed.

(** A table that loads has, under every key, a non-empty list, sorted by
    mass number, of records that carry that key as their symbol, are flagged
    stable, and whose symbol and element name are trimmed. *)
Theorem loaded_table_shape (path : string) (db : table) :
  load_csv path = Return db ->
  forall sym l,
    db !! sym = Some l ->
    l <> [] /\ Forall (loaded_record sym) l /\ Sorted by_mass_number l.
Proof.
  unfold load_csv. intros Hload sym l Hl.
  destruct (files path) as [rows|].
  2:{ injection Hload as <-. rewrite lookup_empty in Hl. discriminate Hl. }
  destruct (load_rows rows ∅) as [db0|e] eqn:Hrows; simpl in Hload;
    [|discriminate Hload].
  injection Hload as <-. rewrite lookup_fmap in Hl.
  destruct (db0 !! sym) as [l0|] eqn:E0; [|discriminate Hl].
  injection Hl as <-.
  assert (Hwk : well_keyed db0).
  { apply (load_rows_well_keyed rows ∅ db0); [|exact Hrows].
    intros k v Hk. rewrite lookup_empty in Hk. discriminate Hk. }
  destruct (Hwk _ _ E0) as [Hne Hall].
  split; [|split].
  - intros E. apply Hne. apply Permutation_nil_r.
    rewrite <- E. symmetry. apply sorted_by_A_perm.
  - eapply Permutation_Forall; [|exact Hall].
    symmetry. apply sorted_by_A_perm.
  - apply sorted_by_A_sorted.
Qed.

(** Two files with the same stable-marked rows load alike: rows that are not
    marked are never converted, so nothing in them can make the load
    fail. *)
Theorem unmarked_rows_are_not_read (p1 p2 : string)
    (rows1 rows2 : list csv_row) :
  files p1 = Some rows1 ->
  files p2 = Some rows2 ->
  filter (fun row => marked_stable row = true) rows1
  = filter (fun row => marked_stable row = true) rows2 ->
  load_csv p1 = load_csv p2.
Proof.
  intros H1 H2 Hf. unfold load_csv. rewrite H1, H2.
  now rewrite (load_rows_filter rows1), (load_rows_filter rows2), Hf.
Qed.

(** The load stops at the first stable-marked row that does not convert and
    raises the bad-row error for that row, whatever follows it. *)
Theorem first_bad_row_is_reported (path : string)
    (good rest : list csv_row) (bad : csv_row) :
  files path = Some (good ++ bad :: rest) ->
  Forall (fun row => marked_stable row = true -> is_Some (make_isotope row))
    good ->
  marked_stable bad = true ->
  make_isotope bad = None ->
  load_csv path = Raise (ValueError (bad_row_message bad)).
Proof.
  intros Hf Hgood Hm Hbad. unfold load_csv. rewrite Hf.
  now rewrite (load_rows_first_bad good rest bad ∅ Hgood Hm Hbad).
Qed.

End LoaderMore.

(** ** The default database *)

Section DefaultDatabase.

Import IsotopesDb.
Context {env : Env}.

Lemma truthy_seed : truthy _SEED = true.
Proof. reflexivity. Qed.

Lemma truthy_false_empty (db : table) : truthy db = false -> db = ∅.
Proof.
  unfold truthy. intros H. apply negb_false_iff, Nat.eqb_eq in H.
  now apply map_size_empty_iff.
Qed.

(** The default database is never empty: it is the table of the file when
    that table has an entry, and the built-in seed when the file is missing
    or yields an empty table. *)
Theorem get_database_never_empty (path : string) (db : table) :
  get_database path = Return db ->
  db <> ∅ /\
  (load_csv path = Return db \/ (load_csv path = Return ∅ /\ db = _SEED)).
Proof.
  unfold get_database. intros H.
  destruct (load_csv path) as [db0|e]; simpl in H; [|discriminate H].
  destruct (truthy db0) eqn:Et; injection H as <-.
  - split; [|left; reflexivity].
    intros ->. discriminate Et.
  - split; [intros E; discriminate (eq_trans (eq_sym truthy_seed)
                                     (f_equal truthy E))|].
    right. now rewrite (truthy_false_empty _ Et).
Qed.

(** Without a file, or with a file none of whose rows is marked stable, the
    default database is the built-in seed, even if unmarked rows are
    malformed. *)
Theorem get_database_seed_fallback (path : string) :
  files path = None \/
  (exists rows,
      files path = Some rows /\
      Forall (fun row => marked_stable row = false) rows) ->
  get_database path = Return _SEED.
Proof.
  intros [Hf|(rows & Hf & Hall)]; unfold get_database, load_csv; rewrite Hf.
  - reflexivity.
  - rewrite load_rows_filter.
    assert (E : filter (fun row => marked_stable row = true) rows = []).
    { clear Hf. induction Hall as [|row rows Hrow _ IH]; [reflexivity|].
      rewrite filter_cons, decide_False; [exact IH | congruence]. }
    rewrite E. simpl. rewrite fmap_empty. reflexivity.
Qed.

(** With no table given and no table file, only tin is known: every other
    symbol is reported as not found. *)
Theorem default_table_knows_only_tin (symbol : string) :
  files "isotopes.csv" = None ->
  atomic_weight symbol None = atomic_weight symbol (Some _SEED) /\
  (normalize_symbol symbol <> "Sn" ->
   atomic_weight symbol None = Raise (NotFound (normalize_symbol symbol))).
Proof.
  intros Hf.
  assert (Hdb : get_database "isotopes.csv" = Return _SEED)
    by (apply get_database_seed_fallback; now left).
  unfold atomic_weight, db_or_default. rewrite truthy_seed, Hdb. simpl.
  split; [reflexivity|]. intros Hne. unfold _SEED.
  rewrite lookup_singleton_ne by congruence. reflexivity.
Qed.

End DefaultDatabase.

(** ** The natural atomic weight: what the value depends on *)

Section NaturalWeightMore.

Local Open Scope Q_scope.
Import IsotopesDb.
Context {env : Env}.







(** A symbol listed with no isotope at all fails the abundance gate: the
    observed sum is zero. *)
Theorem empty_isotope_list_is_inconsistent (symbol : string) (db : table) :
  db !! normalize_symbol symbol = Some [] ->
  atomic_weight symbol (Some db)
  = Raise (DataInconsistency (normalize_symbol symbol) 0).
Proof. intros Hk. now rewrite (atomic_weight_found _ _ _ Hk). Qed.


End NaturalWeightMore.

(** ** The command line *)

Section CommandLine.

Import IsotopesDb Cli.

Lemma make_isotope_ext (e1 e2 : Env) (row : csv_row) :
  (forall s, @py_int e1 s = @py_int e2 s) ->
  (forall s, @py_float e1 s = @py_float e2 s) ->
  @make_isotope e1 row = @make_isotope e2 row.
Proof.
  intros Hi Hf. unfold make_isotope.
  destruct (cell row "element") as [e|]; [|reflexivity].
  destruct (cell row "symbol") as [s|]; [|reflexivity]. simpl.
  destruct (cell row "A") as [a|]; simpl; [rewrite Hi|reflexivity].
  destruct (@py_int e2 a) as [n|]; simpl; [|reflexivity].
  destruct (cell row "mass_u") as [m|]; simpl; [rewrite Hf|reflexivity].
  destruct (@py_float e2 m) as [x|]; simpl; [|reflexivity].
  destruct (cell row "abundance_percent") as [p|]; simpl;
    [rewrite Hf|reflexivity].
  reflexivity.
Qed.

Lemma load_rows_ext (e1 e2 : Env) (rows : list csv_row) (db0 : table) :
  (forall s, @py_int e1 s = @py_int e2 s) ->
  (forall s, @py_float e1 s = @py_float e2 s) ->
  (forall row, @bad_row_message e1 row = @bad_row_message e2 row) ->
  @load_rows e1 rows db0 = @load_rows e2 rows db0.
Proof.
  intros Hi Hf Hb. revert db0.
  induction rows as [|row rows IH]; intros db0; [reflexivity|]. simpl.
  destruct (marked_stable row); simpl; [|apply IH].
  rewrite (make_isotope_ext e1 e2 row Hi Hf), Hb.
  destruct (@make_isotope e2 row); [apply IH | reflexivity].
Qed.

Lemma get_database_ext (e1 e2 : Env) (path : string) :
  same_file_at path e1 e2 ->
  @get_database e1 path = @get_database e2 path.
Proof.
  intros (Hi & Hf & Hb & Hfile). unfold get_database, load_csv.
  rewrite Hfile. destruct (@files e2 path) as [rows|]; [|reflexivity].
  now rewrite (load_rows_ext e1 e2 rows ∅ Hi Hf Hb).
Qed.

Lemma atomic_weight_on_table (e1 e2 : Env) (symbol : string) (db : table) :
  truthy db = true ->
  @atomic_weight e1 symbol (Some db) = @atomic_weight e2 symbol (Some db).
Proof. intros Ht. unfold atomic_weight, db_or_default. now rewrite Ht. Qed.

(** The command reads the file named by [--csv] and no other: two
    environments that agree on that file (and on the built-ins) print the
    same line or fail alike, whatever else the file systems hold.  In
    particular the table handed to the calculator is never replaced a second
    time by the default database. *)
Theorem main_reads_only_its_file (e1 e2 : Env) (symbol : string)
    (csv : option string) :
  same_file_at (default "isotopes.csv" csv) e1 e2 ->
  @main e1 symbol csv = @main e2 symbol csv.
Proof.
  intros Hsame. unfold main.
  rewrite (get_database_ext e1 e2 _ Hsame).
  destruct (@get_database e2 (default "isotopes.csv" csv)) as [db|e] eqn:Hdb;
    simpl; [|reflexivity].
  destruct (@get_database_never_empty e2 _ _ Hdb) as [Hne _].
  now rewrite (atomic_weight_on_table e1 e2 symbol db (truthy_nonempty _ Hne)).
Qed.

(** On the command line a symbol that is absent from the table in use is
    always reported as not found. *)
Theorem main_reports_absent_symbol (env : Env) (symbol : string)
    (csv : option string) (db : table) :
  get_database (default "isotopes.csv" csv) = Return db ->
  db !! normalize_symbol symbol = None ->
  main symbol csv = Raise (NotFound (normalize_symbol symbol)).
Proof.
  intros Hdb Hk. unfold main. rewrite Hdb. simpl.
  destruct (get_database_never_empty _ _ Hdb) as [Hne _].
  unfold atomic_weight, db_or_default. rewrite (truthy_nonempty _ Hne). simpl.
  now rewrite Hk.
Qed.

End CommandLine.

Section MoreExamples.

Local Open Scope Q_scope.
Import IsotopesDb Plain Cli.

Lemma loaded_table_shape_witness :
  [gold; gold] <> [] /\
  Forall (loaded_record "Au") [gold; gold] /\
  Sorted by_mass_number [gold; gold].
Proof.
  apply (@loaded_table_shape
           (one_file "isotopes.csv" [unmarked_row; blank_marker_row; marked_row])
           "isotopes.csv" {[ "Au" := [gold; gold] ]}).
  - vm_compute. reflexivity.
  - vm_compute. reflexivity.
Defined.

Lemma unmarked_rows_are_not_read_witness :
  @load_csv
    (plain_env (fun p =>
       if String.eqb p "a.csv" then Some [marked_row]
       else Some [<["stable" := Some "no"]> (<["A" := Some "?"]> unmarked_row);
                  marked_row]))
    "a.csv"
  = @load_csv
      (plain_env (fun p =>
         if String.eqb p "a.csv" then Some [marked_row]
         else Some [<["stable" := Some "no"]> (<["A" := Some "?"]> unmarked_row);
                    marked_row]))
      "b.csv".
Proof.
  eapply unmarked_rows_are_not_read.
  - vm_compute. reflexivity.
  - vm_compute. reflexivity.
  - vm_compute. reflexivity.
Defined.

Lemma first_bad_row_is_reported_witness :
  @load_csv
    (one_file "isotopes.csv"
       ([marked_row] ++ <["mass_u" := Some "heavy"]> marked_row
                     :: [marked_row]))
    "isotopes.csv"
  = Raise (ValueError "Bad row in CSV").
Proof.
  apply (@first_bad_row_is_reported
           (one_file "isotopes.csv"
              ([marked_row] ++ <["mass_u" := Some "heavy"]> marked_row
                            :: [marked_row]))
           "isotopes.csv" [marked_row] [marked_row]
           (<["mass_u" := Some "heavy"]> marked_row)).
  - vm_compute. reflexivity.
  - apply Forall_cons. split; [|apply Forall_nil; exact I].
    intros _. exists gold. vm_compute. reflexivity.
  - vm_compute. reflexivity.
  - vm_compute. reflexivity.
Defined.

Lemma get_database_never_empty_witness :
  _SEED <> ∅ /\
  (@load_csv no_files "isotopes.csv" = Return _SEED \/
   (@load_csv no_files "isotopes.csv" = Return ∅ /\ _SEED = _SEED)).
Proof.
  apply (@get_database_never_empty no_files "isotopes.csv" _SEED).
  vm_compute. reflexivity.
Defined.

Lemma get_database_seed_fallback_witness :
  @get_database
    (one_file "isotopes.csv"
       [<["stable" := Some "no"]> (<["A" := Some "?"]> unmarked_row)])
    "isotopes.csv"
  = Return _SEED.
Proof.
  apply (@get_database_seed_fallback
           (one_file "isotopes.csv"
              [<["stable" := Some "no"]> (<["A" := Some "?"]> unmarked_row)])).
  right. eexists. split; [vm_compute; reflexivity|].
  apply Forall_cons. split; [vm_compute; reflexivity | apply Forall_nil; exact I].
Defined.

Lemma default_table_knows_only_tin_witness :
  @atomic_weight no_files "au" None = Raise (NotFound "Au").
Proof.
  apply (proj2 (@default_table_knows_only_tin no_files "au" eq_refl)).
  vm_compute. discriminate.
Defined.



Lemma empty_isotope_list_is_inconsistent_witness :
  @atomic_weight no_files "xx" (Some {[ "Xx" := [] ]})
  = Raise (DataInconsistency "Xx" 0).
Proof.
  apply (@empty_isotope_list_is_inconsistent no_files "xx" {[ "Xx" := [] ]}).
  vm_compute. reflexivity.
Defined.


Lemma main_reads_only_its_file_witness :
  @main (one_file "t.csv" [marked_row]) "au" (Some "t.csv")
  = @main
      (plain_env (fun p =>
         if String.eqb p "t.csv" then Some [marked_row]
         else Some [<["A" := Some "?"]> marked_row]))
      "au" (Some "t.csv").
Proof.
  apply main_reads_only_its_file.
  split; [reflexivity|]. split; [reflexivity|]. split; [reflexivity|].
  vm_compute. reflexivity.
Defined.

Lemma main_reports_absent_symbol_witness :
  @main no_files "au" None = Raise (NotFound "Au").
Proof.
  apply (@main_reports_absent_symbol no_files "au" None _SEED).
  - vm_compute. reflexivity.
  - vm_compute. reflexivity.
Defined.

(** The lines the two scripts print. *)
Example main_prints_tin :
  @main no_files "sn" None
  = Return "Atomic weight (natural) for sn: 118.710113 u".
Proof. vm_compute. reflexivity. Qed.

Example weight_percent_script_prints :
  (aw' ← WeightPercent.aw; Return (format_6f aw' ++ " u")%string)
  = Return "239.896722 u" /\
  (aw' ← WeightPercent.aw2; Return (format_6f aw' ++ " u")%string)
  = Return "239.896722 u".
Proof. split; vm_compute; reflexivity. Qed.

End MoreExamples.
